(** * AWS-S3-FileUpload: a shallow embedding of the Lambda upload handlers

    The repository holds two [package main] programs.  The first one
    (called [Compress] below) creates a bucket, compresses the request body
    with Zstandard, passes it through a placeholder [encrypt], prefixes the
    fixed key and uploads the result.  The second one ([Plain]) creates a
    bucket and uploads the request body as it is.

    Everything the programs reach through an SDK is external: the AWS
    configuration loader, the S3 service, the wall clock and the
    Zstandard codec.  They are taken as parameters: an [Env] of oracles for
    the first three and a [ZstdLib] interface for the codec.  What the
    programs do with the answers is translated from [main.go]. *)

From Stdlib Require Import Strings.Byte.
From stdpp Require Import base option list strings gmap pretty.


(** ** Go values *)

(** A Go [error] value, identified with the text of its [Error()]. *)
Definition error := string.

(** A Go result pair [(v, err)] in which exactly one side is meaningful. *)
Inductive result (A : Type) : Type :=
| Ok (v : A)
| Err (err : error).
Arguments Ok {A} v.
Arguments Err {A} err.

Definition is_Ok {A} (r : result A) : bool :=
  match r with Ok _ => true | Err _ => false end.

Definition is_Err {A} (r : result A) : bool := negb (is_Ok r).

#[global] Instance byte_eq_decision : EqDecision byte := Byte.byte_eq_dec.

(** [[]byte(s)]: a Go string is its bytes. *)
Definition bytes_of (s : string) : list byte := String.list_byte_of_string s.

(** [context.Context]; only the two constructors the programs use. *)
Inductive Context := Background | TODO.

(** ** [time.Time] and the layout "20060102-150405" *)

Record Time := {
  Year : N; Month : N; Day : N;
  Hour : N; Minute : N; Second : N;
  Nanosecond : N
}.

(** [appendInt] of package time, for a non-negative [x]: the decimal digits of
    [x], padded with zeros on the left up to [width]. *)
Definition appendInt (x : N) (width : nat) : string :=
  let d := pretty x in
  String.concat "" (replicate (width - String.length d) "0") +:+ d.

(** [t.Format("20060102-150405")]: year on four digits, month, day, a dash,
    hour, minute and second on two digits each. *)
Definition Format (t : Time) : string :=
  appendInt (Year t) 4 +:+ appendInt (Month t) 2 +:+ appendInt (Day t) 2
  +:+ "-" +:+
  appendInt (Hour t) 2 +:+ appendInt (Minute t) 2 +:+ appendInt (Second t) 2.

(** ** The Zstandard library (github.com/klauspost/compress/zstd)

    The encoder writes into the [bytes.Buffer] it was created on; the buffer
    is shared between the encoder and the caller, so its contents are a
    projection of the encoder state. *)
Class ZstdLib := {
  Encoder : Type;
  (** [zstd.NewWriter(&buf)], given the present contents of [buf]. *)
  NewWriter : list byte -> result Encoder;
  (** [encoder.Write(p)]: the count written and the error. *)
  Write : Encoder -> list byte -> Encoder * (nat * option error);
  (** [encoder.Close()]: flush, and the error. *)
  Close : Encoder -> Encoder * option error;
  (** [buf.Bytes()] of the buffer the encoder writes to. *)
  Bytes : Encoder -> list byte;
  (** [decoder.DecodeAll(frame, nil)]. *)
  DecodeAll : list byte -> result (list byte)
}.

(** The library's contract on an in-memory sink: a stream that was opened,
    written once and closed decodes to what was written. *)
Definition zstd_lossless {codec : ZstdLib} : Prop :=
  forall data e0 e1 e2 n cerr,
    NewWriter [] = Ok e0 ->
    Write e0 data = (e1, (n, None)) ->
    Close e1 = (e2, cerr) ->
    DecodeAll (Bytes e2) = Ok data.

(** The encoder takes a write of no bytes: it can be created on an empty
    buffer, and writing nothing to it reports no error. *)
Definition zstd_accepts_empty {codec : ZstdLib} : Prop :=
  exists e0, NewWriter [] = Ok e0
    /\ exists e1 n, Write e0 [] = (e1, (n, None)).

(** ** Payload transform (first program) *)

Section Transform.
Context {codec : ZstdLib}.

(** [compressZstd] compresses data using Zstandard. *)
Definition compressZstd (data : list byte) : result (list byte) :=
  let buf : list byte := [] in
  match NewWriter buf with
  | Err err =>
      Err ("zstandard compression initialization error: " +:+ err)
  | Ok encoder =>
      match Write encoder data with
      | (_, (_, Some err)) => Err ("zstandard compression error: " +:+ err)
      | (encoder, (_, None)) =>
          let '(encoder, _) := Close encoder in
          Ok (Bytes encoder)
      end
  end.

(** [encrypt] returns its input. *)
Definition encrypt (data key : list byte) : result (list byte) :=
  Ok data.

(** [compressAndEncrypt]: compress, "encrypt", then prefix the key. *)
Definition compressAndEncrypt (data : list byte) : result (list byte) :=
  match compressZstd data with
  | Err err => Err ("zstandard compression error: " +:+ err)
  | Ok compressedData =>
      let key := bytes_of "your-encryption-key" in
      match encrypt compressedData key with
      | Err err => Err ("AES encryption error: " +:+ err)
      | Ok encryptedData =>
          let result := key ++ encryptedData in
          Ok result
      end
  end.
End Transform.

(** ** API Gateway events (github.com/aws/aws-lambda-go/events) *)

Module APIGatewayProxyRequest.
Record t := {
  Path : string;
  HTTPMethod : string;
  Headers : gmap string string;
  Body : string;
  IsBase64Encoded : bool
}.
End APIGatewayProxyRequest.

Module APIGatewayProxyResponse.
Record t := {
  StatusCode : Z;
  Headers : gmap string string;
  MultiValueHeaders : gmap string (list string);
  Body : string;
  IsBase64Encoded : bool
}.
End APIGatewayProxyResponse.

(** net/http status codes. *)
Definition StatusOK : Z := 200.
Definition StatusInternalServerError : Z := 500.

(** ** The S3 client (github.com/aws/aws-sdk-go-v2) *)

(** [aws.Config]: what [config.LoadDefaultConfig] found in the ambient
    environment. *)
Record Config := {
  Region : string;
  Credentials : string
}.

(** [*s3.Client]. *)
Record Client := { options : Config }.

(** [s3.NewFromConfig(cfg)]. *)
Definition NewFromConfig (cfg : Config) : Client := {| options := cfg |}.

Module CreateBucketConfiguration.
Record t := { LocationConstraint : string }.
End CreateBucketConfiguration.

Module CreateBucketInput.
Record t := {
  Bucket : option string;
  CreateBucketConfiguration : option CreateBucketConfiguration.t
}.
End CreateBucketInput.

Module PutObjectInput.
Record t := {
  Bucket : option string;
  Key : option string;
  (** the bytes the [io.Reader] yields *)
  Body : list byte
}.
End PutObjectInput.

(** Requests a client can send.  The programs only ever build the first two;
    the deleting ones are part of the client's API all the same. *)
Inductive S3Call :=
| CreateBucketCall (ctx : Context) (params : CreateBucketInput.t)
| PutObjectCall (ctx : Context) (params : PutObjectInput.t)
| DeleteBucketCall (ctx : Context) (bucket : option string)
| DeleteObjectCall (ctx : Context) (bucket key : option string).

(** ** The world a handler runs in *)

(** What an invocation does to the outside, in the order it does it. *)
Inductive Event :=
| LoadedConfig (ctx : Context) (r : result Config)
| ReadClock (now : Time)
| Logged (line : string)
| S3 (client : Client) (call : S3Call) (err : option error).

(** The oracles: what the outside answers.  The S3 service may answer on
    the whole history of the invocation, the clock on the number of the
    reading. *)
Record Env := {
  ambient_config : Context -> result Config;
  wall_clock : nat -> Time;
  s3_service : list Event -> Client -> S3Call -> option error
}.

Record Runtime := {
  ticks : nat;
  trace : list Event
}.

Definition start : Runtime := {| ticks := 0; trace := [] |}.

(** A computation that reads and extends the runtime state. *)
Definition Run (A : Type) : Type := Runtime -> A * Runtime.

#[global] Instance Run_ret : MRet Run := fun A (a : A) rt => (a, rt).
#[global] Instance Run_bind : MBind Run :=
  fun A B (k : A -> Run B) (m : Run A) rt => let '(a, rt') := m rt in k a rt'.

Definition emit (e : Event) : Run unit :=
  fun rt => (tt, {| ticks := ticks rt; trace := trace rt ++ [e] |}).

(** [BucketBasics] encapsulates the S3 actions. *)
Record BucketBasics := { S3Client : Client }.

(** The line feed that ends the format strings of the two helpers. *)
Definition newline : string := String (Ascii.ascii_of_nat 10) EmptyString.

(** A composite literal [events.APIGatewayProxyResponse{StatusCode: status,
    Body: body}]: the fields it does not name are at their zero value, and
    so is [Body] where the literal leaves it out. *)
Definition response (status : Z) (body : string) : APIGatewayProxyResponse.t := {|
  APIGatewayProxyResponse.StatusCode := status;
  APIGatewayProxyResponse.Headers := ∅;
  APIGatewayProxyResponse.MultiValueHeaders := ∅;
  APIGatewayProxyResponse.Body := body;
  APIGatewayProxyResponse.IsBase64Encoded := false |}.

Section Program.
Context (env : Env).

(** [config.LoadDefaultConfig(ctx)]. *)
Definition LoadDefaultConfig (ctx : Context) : Run (result Config) :=
  let r := ambient_config env ctx in
  _ ← emit (LoadedConfig ctx r); mret r.

(** [time.Now()]. *)
Definition Now : Run Time :=
  fun rt =>
    let now := wall_clock env (ticks rt) in
    (now, {| ticks := S (ticks rt); trace := trace rt ++ [ReadClock now] |}).

(** [log.Printf], on the formatted line. *)
Definition Printf (line : string) : Run unit := emit (Logged line).

(** A request sent through the client; the output value is dropped by both
    programs, only the error is kept. *)
Definition send (client : Client) (call : S3Call) : Run (option error) :=
  fun rt =>
    let err := s3_service env (trace rt) client call in
    (err, {| ticks := ticks rt; trace := trace rt ++ [S3 client call err] |}).

(** [CreateBucket] creates a bucket with the specified name in the
    specified Region.  The two programs have the same text for it. *)
Definition CreateBucket (basics : BucketBasics) (name region : string)
  : Run (option error) :=
  err ← send (S3Client basics) (CreateBucketCall TODO {|
    CreateBucketInput.Bucket := Some name;
    CreateBucketInput.CreateBucketConfiguration := Some {|
      CreateBucketConfiguration.LocationConstraint := region |} |});
  match err with
  | Some why =>
      _ ← Printf ("Couldn't create bucket " +:+ name +:+ " in Region "
                  +:+ region +:+ ". Here's why: " +:+ why +:+ newline);
      mret err
  | None => mret err
  end.

(** [UploadFileToS3] uploads a file to an S3 bucket.  The two programs have
    the same text for it. *)
Definition UploadFileToS3 (basics : BucketBasics)
    (bucketName fileName : string) (fileData : list byte)
  : Run (option error) :=
  err ← send (S3Client basics) (PutObjectCall TODO {|
    PutObjectInput.Bucket := Some bucketName;
    PutObjectInput.Key := Some fileName;
    PutObjectInput.Body := fileData |});
  match err with
  | Some why =>
      _ ← Printf ("Couldn't upload file to " +:+ bucketName +:+ ":"
                  +:+ fileName +:+ ". Here's why: " +:+ why +:+ newline);
      mret err
  | None => mret err
  end.
End Program.

(** ** The first program: compress, "encrypt", upload *)

Module Compress.
Section Handler.
Context {codec : ZstdLib} (env : Env).

(** [Handler] is the main Lambda function handler. *)
Definition Handler (ctx : Context) (request : APIGatewayProxyRequest.t)
  : Run (APIGatewayProxyResponse.t * option error) :=
  cfg ← LoadDefaultConfig env ctx;
  match cfg with
  | Err err =>
      _ ← Printf ("Failed to load AWS config: " +:+ err);
      mret (response StatusInternalServerError "", None)
  | Ok cfg =>
      let s3Client := NewFromConfig cfg in
      now ← Now env;
      let bucketName := "filename" +:+ Format now in
      let basics := {| S3Client := s3Client |} in
      err ← CreateBucket env basics bucketName "ap-south-1";
      match err with
      | Some _ => mret (response StatusInternalServerError "", None)
      | None =>
          now ← Now env;
          let fileName := "upload-" +:+ Format now +:+ ".zst" in
          match compressAndEncrypt
                  (bytes_of (APIGatewayProxyRequest.Body request)) with
          | Err _ => mret (response StatusInternalServerError "", None)
          | Ok compressedAndEncryptedData =>
              err ← UploadFileToS3 env basics bucketName fileName
                      compressedAndEncryptedData;
              match err with
              | Some _ =>
                  mret (response StatusInternalServerError "", None)
              | None =>
                  mret (response StatusOK
                          "File successfully uploaded to S3.", None)
              end
          end
      end
  end.
End Handler.
End Compress.

(** ** The second program: upload the body as it is *)

Module Plain.
Section Handler.
Context (env : Env).

(** [Handler] is the main Lambda function handler. *)
Definition Handler (ctx : Context) (request : APIGatewayProxyRequest.t)
  : Run (APIGatewayProxyResponse.t * option error) :=
  cfg ← LoadDefaultConfig env ctx;
  match cfg with
  | Err err =>
      _ ← Printf ("Failed to load AWS config: " +:+ err);
      mret (response StatusInternalServerError "", None)
  | Ok cfg =>
      let s3Client := NewFromConfig cfg in
      now ← Now env;
      let bucketName := "your-prefix-" +:+ Format now in
      let basics := {| S3Client := s3Client |} in
      err ← CreateBucket env basics bucketName "ap-south-1";
      match err with
      | Some _ => mret (response StatusInternalServerError "", None)
      | None =>
          now ← Now env;
          let fileName := "upload-" +:+ Format now in
          err ← UploadFileToS3 env basics bucketName fileName
                  (bytes_of (APIGatewayProxyRequest.Body request));
          match err with
          | Some _ => mret (response StatusInternalServerError "", None)
          | None =>
              mret (response StatusOK
                      "File successfully uploaded to S3.", None)
          end
      end
  end.
End Handler.
End Plain.

(** ** Invocations and what can be observed of them *)

(** The two programs of the repository. *)
Inductive Variant := Compression | Upload.

Section Invocation.
Context {codec : ZstdLib}.

(** One invocation by the Lambda runtime, from a fresh runtime state. *)
Definition invoke (v : Variant) (env : Env) (ctx : Context)
    (request : APIGatewayProxyRequest.t)
  : APIGatewayProxyResponse.t * option error * Runtime :=
  match v with
  | Compression => Compress.Handler env ctx request start
  | Upload => Plain.Handler env ctx request start
  end.

Definition response_of (o : APIGatewayProxyResponse.t * option error * Runtime) :=
  fst (fst o).
Definition error_of (o : APIGatewayProxyResponse.t * option error * Runtime) :=
  snd (fst o).
Definition trace_of (o : APIGatewayProxyResponse.t * option error * Runtime) :=
  trace (snd o).
End Invocation.

(** Classification of events. *)
Definition is_config_error (e : Event) : bool :=
  match e with LoadedConfig _ (Err _) => true | _ => false end.

Definition is_create (e : Event) : bool :=
  match e with S3 _ (CreateBucketCall _ _) _ => true | _ => false end.

Definition is_put (e : Event) : bool :=
  match e with S3 _ (PutObjectCall _ _) _ => true | _ => false end.

Definition is_delete (e : Event) : bool :=
  match e with
  | S3 _ (DeleteBucketCall _ _) _ | S3 _ (DeleteObjectCall _ _ _) _ => true
  | _ => false
  end.

Definition is_s3 (e : Event) : bool :=
  match e with S3 _ _ _ => true | _ => false end.

Definition has_error (e : Event) : bool :=
  match e with
  | S3 _ _ (Some _) | LoadedConfig _ (Err _) => true
  | _ => false
  end.

Definition create_failed (tr : list Event) : bool :=
  existsb (fun e => is_create e && has_error e) tr.

Definition create_succeeded (tr : list Event) : bool :=
  existsb (fun e => is_create e && negb (has_error e)) tr.

Definition put_failed (tr : list Event) : bool :=
  existsb (fun e => is_put e && has_error e) tr.

Definition put_succeeded (tr : list Event) : bool :=
  existsb (fun e => is_put e && negb (has_error e)) tr.

Definition config_failed (tr : list Event) : bool := existsb is_config_error tr.

Definition config_loaded (tr : list Event) : bool :=
  existsb (fun e => match e with LoadedConfig _ (Ok _) => true | _ => false end) tr.

(** The transform stage of an invocation: it exists in the first program
    only, and runs once the bucket has been created. *)
Definition transform_failed {codec : ZstdLib} (v : Variant)
    (request : APIGatewayProxyRequest.t) (tr : list Event) : bool :=
  match v with
  | Compression =>
      create_succeeded tr
      && is_Err (compressAndEncrypt (bytes_of (APIGatewayProxyRequest.Body request)))
  | Upload => false
  end.

Definition transform_succeeded {codec : ZstdLib} (v : Variant)
    (request : APIGatewayProxyRequest.t) : bool :=
  match v with
  | Compression =>
      is_Ok (compressAndEncrypt (bytes_of (APIGatewayProxyRequest.Body request)))
  | Upload => true
  end.

(** The four error kinds of an invocation. *)
Inductive ErrorKind := ConfigError | ProvisionError | CompressionError | WriteError.

Definition stage_failed {codec : ZstdLib} (k : ErrorKind) (v : Variant)
    (request : APIGatewayProxyRequest.t) (tr : list Event) : bool :=
  match k with
  | ConfigError => config_failed tr
  | ProvisionError => create_failed tr
  | CompressionError => transform_failed v request tr
  | WriteError => put_failed tr
  end.

Definition all_stages_succeeded {codec : ZstdLib} (v : Variant)
    (request : APIGatewayProxyRequest.t) (tr : list Event) : bool :=
  config_loaded tr && create_succeeded tr && transform_succeeded v request
  && put_succeeded tr.

(** The names an invocation sent to the service. *)
Definition bucket_of (e : Event) : option string :=
  match e with
  | S3 _ (CreateBucketCall _ p) _ => CreateBucketInput.Bucket p
  | S3 _ (PutObjectCall _ p) _ => PutObjectInput.Bucket p
  | S3 _ (DeleteBucketCall _ b) _ | S3 _ (DeleteObjectCall _ b _) _ => b
  | _ => None
  end.

Definition key_of (e : Event) : option string :=
  match e with
  | S3 _ (PutObjectCall _ p) _ => PutObjectInput.Key p
  | S3 _ (DeleteObjectCall _ _ k) _ => k
  | _ => None
  end.

Definition bucket_names (tr : list Event) : list string := omap bucket_of tr.
Definition object_keys (tr : list Event) : list string := omap key_of tr.

(** The buckets that exist because of this invocation: created by a
    successful creation request and not deleted by a later successful
    deletion request. *)
Definition apply_event (live : gset string) (e : Event) : gset string :=
  match e with
  | S3 _ (CreateBucketCall _ p) None =>
      match CreateBucketInput.Bucket p with
      | Some name => {[ name ]} ∪ live
      | None => live
      end
  | S3 _ (DeleteBucketCall _ (Some name)) None => live ∖ {[ name ]}
  | _ => live
  end.

Definition live_buckets (tr : list Event) : gset string :=
  foldl apply_event ∅ tr.

(** The buckets an invocation created. *)
Definition created_buckets (tr : list Event) : list string :=
  omap bucket_of (List.filter (fun e => is_create e && negb (has_error e)) tr).

(** [contains sub s]: [sub] occurs in [s]. *)
Fixpoint contains (sub s : string) : bool :=
  String.prefix sub s ||
  match s with
  | EmptyString => false
  | String _ s' => contains sub s'
  end.

(** More classes of events. *)
Definition is_logged (e : Event) : bool :=
  match e with Logged _ => true | _ => false end.


Definition is_config (e : Event) : bool :=
  match e with LoadedConfig _ _ => true | _ => false end.

(** The context and the client a request was sent with. *)
Definition context_of (e : Event) : option Context :=
  match e with
  | S3 _ (CreateBucketCall c _) _ | S3 _ (PutObjectCall c _) _
  | S3 _ (DeleteBucketCall c _) _ | S3 _ (DeleteObjectCall c _ _) _ => Some c
  | _ => None
  end.

Definition client_of (e : Event) : option Client :=
  match e with S3 client _ _ => Some client | _ => None end.

(** Some stage of the invocation failed. *)
Definition some_stage_failed {codec : ZstdLib} (v : Variant)
    (request : APIGatewayProxyRequest.t) (tr : list Event) : bool :=
  existsb (fun k => stage_failed k v request tr)
    [ConfigError; ProvisionError; CompressionError; WriteError].

(** ** A stand-in codec and sample worlds

    [stored] keeps the data behind the four bytes of the Zstandard magic
    number.  It stands for the library where a statement is run on a concrete
    input. *)
Module Sample.
Definition magic : list byte := [x28; xb5; x2f; xfd]%byte.

Record enc := { sink : list byte; pending : list byte }.

Definition decode (frame : list byte) : result (list byte) :=
  if decide (take 4 frame = magic) then Ok (drop 4 frame)
  else Err "invalid input: magic number mismatch".

#[local] Instance stored : ZstdLib := {|
  Encoder := enc;
  NewWriter buf := Ok {| sink := buf; pending := [] |};
  Write e p := ({| sink := sink e; pending := pending e ++ p |},
                (length p, None));
  Close e := ({| sink := sink e ++ magic ++ pending e; pending := [] |}, None);
  Bytes e := sink e;
  DecodeAll := decode
|}.

(** A codec whose encoder rejects every write. *)
#[local] Instance broken : ZstdLib := {|
  Encoder := enc;
  NewWriter buf := Ok {| sink := buf; pending := [] |};
  Write e p := (e, (0, Some "short write"));
  Close e := (e, None);
  Bytes e := sink e;
  DecodeAll := decode
|}.

Local Open Scope N_scope.

Definition noon : Time :=
  {| Year := 2024; Month := 3; Day := 7; Hour := 12; Minute := 0;
     Second := 0; Nanosecond := 0 |}.

(** Later in the same second. *)
Definition noon' : Time :=
  {| Year := 2024; Month := 3; Day := 7; Hour := 12; Minute := 0;
     Second := 0; Nanosecond := 750000000 |}.

Definition cfg : Config :=
  {| Region := "us-east-1"; Credentials := "AKIAEXAMPLE" |}.

(** Everything succeeds. *)
Definition sunny : Env := {|
  ambient_config _ := Ok cfg;
  wall_clock _ := noon;
  s3_service _ _ _ := None |}.

(** As [sunny], read later in the same second. *)
Definition sunny' : Env := {|
  ambient_config _ := Ok cfg;
  wall_clock _ := noon';
  s3_service _ _ _ := None |}.

(** As [sunny], with a creation request that takes until the next second:
    the second reading of the clock is one second after the first. *)
Definition slow : Env := {|
  ambient_config _ := Ok cfg;
  wall_clock k :=
    match k with
    | O => noon
    | S _ => {| Year := 2024; Month := 3; Day := 7; Hour := 12; Minute := 0;
                Second := 1; Nanosecond := 0 |}
    end;
  s3_service _ _ _ := None |}.

(** No configuration can be loaded. *)
Definition no_config : Env := {|
  ambient_config _ := Err "failed to get shared config profile";
  wall_clock _ := noon;
  s3_service _ _ _ := None |}.

(** The service refuses to create buckets. *)
Definition no_bucket : Env := {|
  ambient_config _ := Ok cfg;
  wall_clock _ := noon;
  s3_service _ _ call :=
    match call with
    | CreateBucketCall _ _ => Some "BucketAlreadyExists"
    | _ => None
    end |}.

(** The service creates buckets and refuses objects. *)
Definition no_object : Env := {|
  ambient_config _ := Ok cfg;
  wall_clock _ := noon;
  s3_service _ _ call :=
    match call with
    | PutObjectCall _ _ => Some "AccessDenied"
    | _ => None
    end |}.

Definition hello : APIGatewayProxyRequest.t := {|
  APIGatewayProxyRequest.Path := "/upload";
  APIGatewayProxyRequest.HTTPMethod := "POST";
  APIGatewayProxyRequest.Headers := ∅;
  APIGatewayProxyRequest.Body := "hello";
  APIGatewayProxyRequest.IsBase64Encoded := false |}.

Definition empty : APIGatewayProxyRequest.t := {|
  APIGatewayProxyRequest.Path := "/upload";
  APIGatewayProxyRequest.HTTPMethod := "POST";
  APIGatewayProxyRequest.Headers := ∅;
  APIGatewayProxyRequest.Body := "";
  APIGatewayProxyRequest.IsBase64Encoded := false |}.
(** A codec whose encoder reports an error on [Close] and has flushed
    nothing. *)
#[local] Instance unflushed : ZstdLib := {|
  Encoder := enc;
  NewWriter buf := Ok {| sink := buf; pending := [] |};
  Write e p := ({| sink := sink e; pending := pending e ++ p |},
                (length p, None));
  Close e := (e, Some "write error");
  Bytes e := sink e;
  DecodeAll := decode
|}.

(** A codec whose encoder cannot be created. *)
#[local] Instance unavailable : ZstdLib := {|
  Encoder := enc;
  NewWriter buf := Err "invalid option";
  Write e p := (e, (length p, None));
  Close e := (e, None);
  Bytes e := sink e;
  DecodeAll := decode
|}.

(** As [sunny], one second later. *)
Definition next : Env := {|
  ambient_config _ := Ok cfg;
  wall_clock _ := {| Year := 2024; Month := 3; Day := 7; Hour := 12;
                     Minute := 0; Second := 1; Nanosecond := 0 |}%N;
  s3_service _ _ _ := None |}.

(** The body of [hello] in a request that differs in every other field. *)
Definition flagged : APIGatewayProxyRequest.t := {|
  APIGatewayProxyRequest.Path := "/other";
  APIGatewayProxyRequest.HTTPMethod := "PUT";
  APIGatewayProxyRequest.Headers := {[ "Content-Type" := "text/plain" ]};
  APIGatewayProxyRequest.Body := "hello";
  APIGatewayProxyRequest.IsBase64Encoded := true |}.
End Sample.

(** ** Running a handler symbolically *)

(** Case analysis on the next answer of the outside world. *)
Ltac answer :=
  match goal with
  | |- context [ambient_config ?env ?ctx] =>
      let Hcfg := fresh "Hcfg" in
      destruct (ambient_config env ctx) as [?cfg|?err] eqn:Hcfg
  | |- context [s3_service ?env ?h ?c ?call] =>
      let Hs3 := fresh "Hs3" in
      destruct (s3_service env h c call) as [?why|] eqn:Hs3
  | |- context [compressAndEncrypt ?data] =>
      let Htr := fresh "Htr" in
      destruct (compressAndEncrypt data) as [?payload|?err] eqn:Htr
  end.

Ltac unfold_handler :=
  unfold invoke, Compress.Handler, Plain.Handler, CreateBucket, UploadFileToS3,
    LoadDefaultConfig, Now, Printf, send, emit, mbind, mret, Run_bind, Run_ret,
    start;
  cbn [ticks trace fst snd].

Ltac run_handler := unfold_handler; repeat (answer; cbn [ticks trace fst snd app]).

(** Membership in a trace that has been run down to its events. *)
Ltac pick_event H :=
  rewrite ?elem_of_cons, ?elem_of_nil in H; destruct_or?; simplify_eq.

(** * Properties *)

Example Format_example :
  Format {| Year := 2024; Month := 3; Day := 7; Hour := 9; Minute := 5;
            Second := 0; Nanosecond := 123 |}%N = "20240307-090500".
Proof. vm_compute. reflexivity. Qed.

(** ** The transform *)

Section TransformFacts.
Context {codec : ZstdLib}.

Lemma compressAndEncrypt_Ok data compressed :
  compressZstd data = Ok compressed ->
  compressAndEncrypt data = Ok (bytes_of "your-encryption-key" ++ compressed).
Proof. intros Hc. unfold compressAndEncrypt. rewrite Hc. reflexivity. Qed.

Lemma compressAndEncrypt_Err data err :
  compressZstd data = Err err ->
  compressAndEncrypt data = Err ("zstandard compression error: " +:+ err).
Proof. intros Hc. unfold compressAndEncrypt. rewrite Hc. reflexivity. Qed.

Lemma compressZstd_lossless data compressed :
  zstd_lossless ->
  compressZstd data = Ok compressed -> DecodeAll compressed = Ok data.
Proof.
  intros Hlib. unfold compressZstd.
  destruct (NewWriter []) as [e0|] eqn:Hnew; [|discriminate].
  destruct (Write e0 data) as [e1 [n [werr|]]] eqn:Hwrite; [discriminate|].
  destruct (Close e1) as [e2 cerr] eqn:Hclose.
  intros [= <-]. eapply Hlib; eassumption.
Qed.
End TransformFacts.

Lemma stored_lossless : zstd_lossless (codec := Sample.stored).
Proof.
  intros data e0 e1 e2 n cerr Hnew Hwrite Hclose. simpl in *.
  injection Hnew as <-. injection Hwrite as <- _. injection Hclose as <- _.
  reflexivity.
Qed.

(** C6. [encrypt] returns its input unchanged, whatever the key, and never an
    error; the output of [compressAndEncrypt] is the fixed key followed by
    what [encrypt] made of the compressed bytes; and [compressAndEncrypt]
    fails exactly when the compression fails. *)
Theorem obscure_stage_shape {codec : ZstdLib} (data : list byte) :
  (forall key : list byte, encrypt data key = Ok data)
  /\ match compressZstd data with
     | Ok compressed =>
         exists encrypted,
           encrypt compressed (bytes_of "your-encryption-key") = Ok encrypted
           /\ compressAndEncrypt data
              = Ok (bytes_of "your-encryption-key" ++ encrypted)
     | Err _ => is_Err (compressAndEncrypt data) = true
     end
  /\ is_Err (compressAndEncrypt data) = is_Err (compressZstd data).
Proof.
  split; [reflexivity|]. split.
  - destruct (compressZstd data) as [compressed|err] eqn:Hc.
    + exists compressed. split; [reflexivity|].
      by apply compressAndEncrypt_Ok.
    + by rewrite (compressAndEncrypt_Err _ _ Hc).
  - destruct (compressZstd data) as [compressed|err] eqn:Hc.
    + by rewrite (compressAndEncrypt_Ok _ _ Hc).
    + by rewrite (compressAndEncrypt_Err _ _ Hc).
Qed.

(** C1. With a lossless Zstandard library, [compressAndEncrypt] either reports
    the library's own failure or returns bytes from which dropping the first
    [len(key)] bytes and decompressing gives back the input. *)
Theorem transform_round_trip {codec : ZstdLib} (b : list byte) :
  zstd_lossless ->
  match compressAndEncrypt b with
  | Ok out =>
      DecodeAll (drop (length (bytes_of "your-encryption-key")) out) = Ok b
  | Err _ => is_Err (compressZstd b) = true
  end.
Proof.
  intros Hlib.
  destruct (compressZstd b) as [compressed|err] eqn:Hc.
  - rewrite (compressAndEncrypt_Ok _ _ Hc), drop_app_length.
    by apply compressZstd_lossless.
  - by rewrite (compressAndEncrypt_Err _ _ Hc).
Qed.

Lemma transform_round_trip_witness :
  zstd_lossless (codec := Sample.stored)
  /\ exists out,
       compressAndEncrypt (codec := Sample.stored) (bytes_of "hello") = Ok out
       /\ DecodeAll (ZstdLib := Sample.stored) (drop 19 out) = Ok (bytes_of "hello").
Proof.
  split; [exact stored_lossless|].
  eexists. split; [reflexivity|].
  exact (transform_round_trip (codec := Sample.stored) (bytes_of "hello")
           stored_lossless).
Defined.

(** C10. Whatever happens, [Handler] returns a nil Go error, and the status
    of the response is 200 or 500. *)
Theorem handler_result_shape {codec : ZstdLib} (v : Variant) (env : Env)
    (ctx : Context) (request : APIGatewayProxyRequest.t) :
  error_of (invoke v env ctx request) = None
  /\ (APIGatewayProxyResponse.StatusCode (response_of (invoke v env ctx request)) = 200%Z
      \/ APIGatewayProxyResponse.StatusCode (response_of (invoke v env ctx request)) = 500%Z).
Proof.
  destruct v; run_handler;
    (split; [reflexivity | first [by left | by right]]).
Qed.

(** C2. If any stage of an invocation fails (configuration, bucket creation,
    transform, object write), the response is status 500 with an empty body,
    no headers and nothing else: the same value for every error kind and
    every cause. *)
Theorem uniform_error_surface {codec : ZstdLib} (k : ErrorKind) (v : Variant)
    (env : Env) (ctx : Context) (request : APIGatewayProxyRequest.t) :
  stage_failed k v request (trace_of (invoke v env ctx request)) = true ->
  response_of (invoke v env ctx request) = {|
    APIGatewayProxyResponse.StatusCode := 500;
    APIGatewayProxyResponse.Headers := ∅;
    APIGatewayProxyResponse.MultiValueHeaders := ∅;
    APIGatewayProxyResponse.Body := "";
    APIGatewayProxyResponse.IsBase64Encoded := false |}.
Proof.
  destruct v, k; unfold stage_failed, transform_failed; run_handler; cbn;
    intros Hfail; first [discriminate Hfail | reflexivity].
Qed.

Lemma uniform_error_surface_witness :
  let failure := {|
    APIGatewayProxyResponse.StatusCode := 500%Z;
    APIGatewayProxyResponse.Headers := ∅;
    APIGatewayProxyResponse.MultiValueHeaders := ∅;
    APIGatewayProxyResponse.Body := "";
    APIGatewayProxyResponse.IsBase64Encoded := false |} in
  response_of (invoke (codec := Sample.stored) Upload Sample.no_config
                 Background Sample.hello) = failure
  /\ response_of (invoke (codec := Sample.stored) Compression Sample.no_bucket
                    Background Sample.hello) = failure
  /\ response_of (invoke (codec := Sample.broken) Compression Sample.sunny
                    Background Sample.hello) = failure
  /\ response_of (invoke (codec := Sample.stored) Upload Sample.no_object
                    Background Sample.hello) = failure.
Proof.
  intros failure. split; [|split; [|split]].
  - apply (uniform_error_surface (codec := Sample.stored) ConfigError).
    vm_compute. reflexivity.
  - apply (uniform_error_surface (codec := Sample.stored) ProvisionError).
    vm_compute. reflexivity.
  - apply (uniform_error_surface (codec := Sample.broken) CompressionError).
    vm_compute. reflexivity.
  - apply (uniform_error_surface (codec := Sample.stored) WriteError).
    vm_compute. reflexivity.
Defined.

(** C3. If the bucket creation request fails, no object is ever put: the trace
    of the invocation holds no [PutObject] request, and the response is the
    500 one. *)
Theorem fail_fast_on_provisioning_error {codec : ZstdLib} (v : Variant)
    (env : Env) (ctx : Context) (request : APIGatewayProxyRequest.t) :
  create_failed (trace_of (invoke v env ctx request)) = true ->
  existsb is_put (trace_of (invoke v env ctx request)) = false
  /\ response_of (invoke v env ctx request)
     = response StatusInternalServerError "".
Proof.
  destruct v; run_handler; cbn; intros Hfail;
    first [discriminate Hfail | split; reflexivity].
Qed.

Lemma fail_fast_on_provisioning_error_witness :
  (existsb is_put
     (trace_of (invoke (codec := Sample.stored) Compression Sample.no_bucket
                  Background Sample.hello)) = false
   /\ APIGatewayProxyResponse.StatusCode
        (response_of (invoke (codec := Sample.stored) Compression
                        Sample.no_bucket Background Sample.hello)) = 500%Z)
  /\ (existsb is_put
        (trace_of (invoke (codec := Sample.stored) Upload Sample.no_bucket
                     Background Sample.hello)) = false
      /\ APIGatewayProxyResponse.StatusCode
           (response_of (invoke (codec := Sample.stored) Upload
                           Sample.no_bucket Background Sample.hello)) = 500%Z).
Proof.
  split.
  - destruct (fail_fast_on_provisioning_error (codec := Sample.stored)
                Compression Sample.no_bucket Background Sample.hello)
      as [Hput Hresp]; [vm_compute; reflexivity|].
    split; [exact Hput | rewrite Hresp; reflexivity].
  - destruct (fail_fast_on_provisioning_error (codec := Sample.stored)
                Upload Sample.no_bucket Background Sample.hello)
      as [Hput Hresp]; [vm_compute; reflexivity|].
    split; [exact Hput | rewrite Hresp; reflexivity].
Defined.

(** ** Occurrences of a string in another *)

Lemma prefix_app_l (p x s : string) :
  String.prefix (p +:+ x) s = true -> String.prefix p s = true.
Proof.
  revert s. induction p as [|a p IH]; intros s; [by destruct s|].
  destruct s as [|b s]; [done|]. simpl.
  destruct (Ascii.ascii_dec a b); [apply IH | done].
Qed.

Lemma contains_app_l (p x s : string) :
  contains p s = false -> contains (p +:+ x) s = false.
Proof.
  induction s as [|b s IH]; cbn [contains].
  - rewrite !orb_false_r. intros Hp.
    destruct (String.prefix (p +:+ x) "") eqn:Hpx; [|done].
    by rewrite (prefix_app_l _ _ _ Hpx) in Hp.
  - intros [Hp Hs]%orb_false_elim. rewrite (IH Hs), orb_false_r.
    destruct (String.prefix (p +:+ x) (String b s)) eqn:Hpx; [|done].
    by rewrite (prefix_app_l _ _ _ Hpx) in Hp.
Qed.

(** C4. If every stage of an invocation succeeds, the response is status 200
    with the body "File successfully uploaded to S3." and nothing else; the
    body is the same for every request, and no bucket name and no object key
    the invocation used occurs in it. *)
Theorem success_path_literal {codec : ZstdLib} (v : Variant) (env : Env)
    (ctx : Context) (request : APIGatewayProxyRequest.t) :
  all_stages_succeeded v request (trace_of (invoke v env ctx request)) = true ->
  response_of (invoke v env ctx request) = {|
    APIGatewayProxyResponse.StatusCode := 200;
    APIGatewayProxyResponse.Headers := ∅;
    APIGatewayProxyResponse.MultiValueHeaders := ∅;
    APIGatewayProxyResponse.Body := "File successfully uploaded to S3.";
    APIGatewayProxyResponse.IsBase64Encoded := false |}
  /\ Forall (fun name => contains name "File successfully uploaded to S3." = false)
       (bucket_names (trace_of (invoke v env ctx request)))
  /\ Forall (fun key => contains key "File successfully uploaded to S3." = false)
       (object_keys (trace_of (invoke v env ctx request))).
Proof.
  destruct v; unfold all_stages_succeeded, transform_succeeded; run_handler;
    cbn; intros Hall; try discriminate Hall.
  all: split; [reflexivity|].
  all: split; repeat constructor; by apply contains_app_l.
Qed.

Lemma success_path_literal_witness :
  APIGatewayProxyResponse.Body
    (response_of (invoke (codec := Sample.stored) Compression Sample.sunny
                    Background Sample.hello))
  = "File successfully uploaded to S3."
  /\ APIGatewayProxyResponse.Body
       (response_of (invoke (codec := Sample.stored) Upload Sample.sunny
                       Background Sample.empty))
     = "File successfully uploaded to S3.".
Proof.
  split.
  - destruct (success_path_literal (codec := Sample.stored) Compression
                Sample.sunny Background Sample.hello) as [Hresp _];
      [vm_compute; reflexivity|].
    rewrite Hresp. reflexivity.
  - destruct (success_path_literal (codec := Sample.stored) Upload
                Sample.sunny Background Sample.empty) as [Hresp _];
      [vm_compute; reflexivity|].
    rewrite Hresp. reflexivity.
Defined.

(** ** Names *)

(** C5. Take two invocations of the same program, in any two worlds and on any
    two requests.  If their first clock readings format to the same second,
    every bucket name of the one equals every bucket name of the other; if
    their second clock readings do, the same holds of the object keys. *)
Theorem same_second_naming_collision {codec : ZstdLib} (v : Variant)
    (env1 env2 : Env) (ctx1 ctx2 : Context)
    (request1 request2 : APIGatewayProxyRequest.t) :
  (Format (wall_clock env1 0) = Format (wall_clock env2 0) ->
   forall name1 name2,
     name1 ∈ bucket_names (trace_of (invoke v env1 ctx1 request1)) ->
     name2 ∈ bucket_names (trace_of (invoke v env2 ctx2 request2)) ->
     name1 = name2)
  /\ (Format (wall_clock env1 1) = Format (wall_clock env2 1) ->
      forall key1 key2,
        key1 ∈ object_keys (trace_of (invoke v env1 ctx1 request1)) ->
        key2 ∈ object_keys (trace_of (invoke v env2 ctx2 request2)) ->
        key1 = key2).
Proof.
  split; intros Hsec n1 n2; revert Hsec.
  all: destruct v; run_handler; cbn; intros Hsec H1 H2.
  all: repeat match goal with
         | H : _ ∈ [] |- _ => by apply elem_of_nil in H
         | H : _ ∈ _ :: _ |- _ => apply elem_of_cons in H as [->|H]
         end.
  all: by rewrite Hsec.
Qed.

Lemma same_second_naming_collision_witness :
  Sample.noon <> Sample.noon'
  /\ bucket_names (trace_of (invoke (codec := Sample.stored) Compression
                               Sample.sunny Background Sample.hello))
     = ["filename20240307-120000"; "filename20240307-120000"]
  /\ object_keys (trace_of (invoke (codec := Sample.stored) Compression
                              Sample.sunny' Background Sample.empty))
     = ["upload-20240307-120000.zst"]
  /\ (forall name1 name2,
        name1 ∈ bucket_names (trace_of (invoke (codec := Sample.stored)
                 Compression Sample.sunny Background Sample.hello)) ->
        name2 ∈ bucket_names (trace_of (invoke (codec := Sample.stored)
                 Compression Sample.sunny' Background Sample.empty)) ->
        name1 = name2)
  /\ (forall key1 key2,
        key1 ∈ object_keys (trace_of (invoke (codec := Sample.stored)
                 Compression Sample.sunny Background Sample.hello)) ->
        key2 ∈ object_keys (trace_of (invoke (codec := Sample.stored)
                 Compression Sample.sunny' Background Sample.empty)) ->
        key1 = key2).
Proof.
  split; [discriminate|].
  split; [vm_compute; reflexivity|].
  split; [vm_compute; reflexivity|].
  destruct (same_second_naming_collision (codec := Sample.stored) Compression
              Sample.sunny Sample.sunny' Background Background
              Sample.hello Sample.empty) as [Hnames Hkeys].
  split; [apply Hnames | apply Hkeys]; vm_compute; reflexivity.
Defined.

(** The layout has no field below the second. *)
Lemma Format_second_granularity (t : Time) (ns : N) :
  Format {| Year := Year t; Month := Month t; Day := Day t; Hour := Hour t;
            Minute := Minute t; Second := Second t; Nanosecond := ns |}
  = Format t.
Proof. reflexivity. Qed.

(** The key is named after the second reading of the clock, taken once the
    creation request has returned: two invocations that start in the same
    second share the bucket name, and their keys differ when one of them gets
    to the second reading a second later. *)
Example keys_follow_the_second_reading :
  Format (wall_clock Sample.sunny 0) = Format (wall_clock Sample.slow 0)
  /\ object_keys (trace_of (invoke (codec := Sample.stored) Upload
                              Sample.sunny Background Sample.hello))
     = ["upload-20240307-120000"]
  /\ object_keys (trace_of (invoke (codec := Sample.stored) Upload
                              Sample.slow Background Sample.hello))
     = ["upload-20240307-120001"].
Proof. repeat split; vm_compute; reflexivity. Qed.

(** ** Requests sent to the service *)

(** C7. If the bucket is created and then the transform or the object write
    fails, the handler answers 500 and has sent nothing but the creation
    request and, at most, the object write: no deletion, no rollback.  The
    bucket it created is still there at the end of the invocation. *)
Theorem no_partial_failure_cleanup {codec : ZstdLib} (v : Variant) (env : Env)
    (ctx : Context) (request : APIGatewayProxyRequest.t) :
  create_succeeded (trace_of (invoke v env ctx request)) = true ->
  transform_failed v request (trace_of (invoke v env ctx request))
  || put_failed (trace_of (invoke v env ctx request)) = true ->
  response_of (invoke v env ctx request) = response StatusInternalServerError ""
  /\ existsb is_delete (trace_of (invoke v env ctx request)) = false
  /\ forallb (fun e => negb (is_s3 e) || is_create e || is_put e)
       (trace_of (invoke v env ctx request)) = true
  /\ length (List.filter is_create (trace_of (invoke v env ctx request))) = 1
  /\ length (List.filter is_put (trace_of (invoke v env ctx request))) <= 1
  /\ created_buckets (trace_of (invoke v env ctx request)) <> []
  /\ (forall name,
        name ∈ created_buckets (trace_of (invoke v env ctx request)) ->
        name ∈ live_buckets (trace_of (invoke v env ctx request))).
Proof.
  destruct v; unfold transform_failed; run_handler; cbn.
  all: intros Hcreated Hfail; try discriminate Hcreated; try discriminate Hfail.
  all: repeat (split; [first [reflexivity | lia | discriminate]|]).
  all: unfold live_buckets; cbn [foldl apply_event CreateBucketInput.Bucket].
  all: intros name Hname; set_solver.
Qed.

Lemma no_partial_failure_cleanup_witness :
  let o := invoke (codec := Sample.stored) Compression Sample.no_object
             Background Sample.hello in
  APIGatewayProxyResponse.StatusCode (response_of o) = 500%Z
  /\ existsb is_delete (trace_of o) = false
  /\ "filename20240307-120000" ∈ live_buckets (trace_of o).
Proof.
  intros o.
  destruct (no_partial_failure_cleanup (codec := Sample.stored) Compression
              Sample.no_object Background Sample.hello)
    as (Hresp & Hdel & _ & _ & _ & _ & Hlive);
    [vm_compute; reflexivity | vm_compute; reflexivity |].
  split; [subst o; rewrite Hresp; reflexivity|].
  split; [exact Hdel|].
  apply Hlive. vm_compute. apply list_elem_of_here.
Defined.

(** C9. [CreateBucket] sends one request, a bucket creation carrying its
    [name] argument as bucket name and its [region] argument as location
    constraint; and whenever the configuration loads, with whatever region in
    it, the handler sends exactly one creation request, and that one asks for
    "ap-south-1". *)
Theorem bucket_creation_request_shape {codec : ZstdLib} :
  (forall env basics name region rt,
     List.filter is_s3 (trace (snd (CreateBucket env basics name region rt)))
     = List.filter is_s3 (trace rt)
       ++ [S3 (S3Client basics)
             (CreateBucketCall TODO {|
                CreateBucketInput.Bucket := Some name;
                CreateBucketInput.CreateBucketConfiguration := Some {|
                  CreateBucketConfiguration.LocationConstraint := region |} |})
             (fst (CreateBucket env basics name region rt))])
  /\ (forall v env ctx request cfg,
        ambient_config env ctx = Ok cfg ->
        exists name err,
          List.filter is_create (trace_of (invoke v env ctx request))
          = [S3 (NewFromConfig cfg)
               (CreateBucketCall TODO {|
                  CreateBucketInput.Bucket := Some name;
                  CreateBucketInput.CreateBucketConfiguration := Some {|
                    CreateBucketConfiguration.LocationConstraint :=
                      "ap-south-1" |} |})
               err]).
Proof.
  split.
  - intros env basics name region rt.
    unfold CreateBucket, send, Printf, emit, mbind, mret, Run_bind, Run_ret.
    destruct (s3_service env (trace rt) (S3Client basics) _) as [why|];
      cbn [fst snd trace]; rewrite ?List.filter_app, ?app_nil_r;
      cbn [List.filter is_s3]; by rewrite ?app_nil_r.
  - intros v env ctx request cfg Hcfg.
    destruct v; unfold_handler; rewrite Hcfg; cbn [ticks trace fst snd app];
      repeat (answer; cbn [ticks trace fst snd app]);
      cbn; by eexists _, _.
Qed.

Lemma bucket_creation_request_shape_witness :
  Region Sample.cfg = "us-east-1"
  /\ exists name err,
       List.filter is_create
         (trace_of (invoke (codec := Sample.stored) Upload Sample.sunny
                      Background Sample.hello))
       = [S3 (NewFromConfig Sample.cfg)
            (CreateBucketCall TODO {|
               CreateBucketInput.Bucket := Some name;
               CreateBucketInput.CreateBucketConfiguration := Some {|
                 CreateBucketConfiguration.LocationConstraint :=
                   "ap-south-1" |} |})
            err].
Proof.
  split; [reflexivity|].
  apply (proj2 (bucket_creation_request_shape (codec := Sample.stored))).
  reflexivity.
Defined.

(** ** The empty body *)

(** C8. On an empty request body, when the configuration loads and the service
    accepts the bucket creation and the object write, the handler answers
    200; in the first program, given an encoder that takes an empty write,
    [compressZstd] returns without error on the empty input. *)
Theorem empty_body_succeeds {codec : ZstdLib} (v : Variant) (env : Env)
    (ctx : Context) (request : APIGatewayProxyRequest.t) (cfg : Config) :
  APIGatewayProxyRequest.Body request = "" ->
  ambient_config env ctx = Ok cfg ->
  (forall history client c params,
     s3_service env history client (CreateBucketCall c params) = None) ->
  (forall history client c params,
     s3_service env history client (PutObjectCall c params) = None) ->
  (v = Compression -> zstd_accepts_empty) ->
  (v = Compression -> is_Ok (compressZstd []) = true)
  /\ APIGatewayProxyResponse.StatusCode (response_of (invoke v env ctx request))
     = 200%Z.
Proof.
  intros Hbody Hcfg Hcreate Hput Hcodec.
  assert (Hzstd : v = Compression -> is_Ok (compressZstd []) = true).
  { intros Hv. destruct (Hcodec Hv) as (e0 & Hnew & e1 & n & Hwrite).
    unfold compressZstd. rewrite Hnew, Hwrite.
    by destruct (Close e1). }
  split; [exact Hzstd|].
  destruct v; unfold_handler; rewrite Hcfg, Hbody; cbn [ticks trace fst snd app];
    rewrite Hcreate; cbn [ticks trace fst snd app].
  - specialize (Hzstd eq_refl). unfold compressAndEncrypt.
    change (bytes_of "") with (@nil byte).
    destruct (compressZstd []) as [compressed|]; [|discriminate Hzstd].
    cbn [encrypt]. by rewrite Hput.
  - by rewrite Hput.
Qed.

Lemma stored_accepts_empty : zstd_accepts_empty (codec := Sample.stored).
Proof. eexists. split; [reflexivity|]. by eexists _, _. Qed.

Lemma empty_body_succeeds_witness :
  (is_Ok (compressZstd (codec := Sample.stored) []) = true
   /\ APIGatewayProxyResponse.StatusCode
        (response_of (invoke (codec := Sample.stored) Compression Sample.sunny
                        Background Sample.empty)) = 200%Z)
  /\ APIGatewayProxyResponse.StatusCode
       (response_of (invoke (codec := Sample.stored) Upload Sample.sunny
                       Background Sample.empty)) = 200%Z.
Proof.
  split.
  - destruct (empty_body_succeeds (codec := Sample.stored) Compression
                Sample.sunny Background Sample.empty Sample.cfg)
      as [Hzstd Hstatus]; try reflexivity.
    + intros _. exact stored_accepts_empty.
    + split; [by apply Hzstd | exact Hstatus].
  - apply (empty_body_succeeds (codec := Sample.stored) Upload
             Sample.sunny Background Sample.empty Sample.cfg);
      try reflexivity.
    discriminate.
Defined.

(** * Further properties of the code *)

(** ** The two S3 helpers *)

(** X1. [UploadFileToS3] sends one request, a [PutObject] carrying its three
    arguments as bucket, key and body; it returns what the service answered,
    and reads no clock. *)
Theorem UploadFileToS3_request_shape (env : Env) (basics : BucketBasics)
    (bucketName fileName : string) (fileData : list byte) (rt : Runtime) :
  let call := PutObjectCall TODO {|
                PutObjectInput.Bucket := Some bucketName;
                PutObjectInput.Key := Some fileName;
                PutObjectInput.Body := fileData |} in
  let r := UploadFileToS3 env basics bucketName fileName fileData rt in
  fst r = s3_service env (trace rt) (S3Client basics) call
  /\ List.filter is_s3 (trace (snd r))
     = List.filter is_s3 (trace rt) ++ [S3 (S3Client basics) call (fst r)]
  /\ ticks (snd r) = ticks rt.
Proof.
  intros call r. subst r call.
  unfold UploadFileToS3, send, Printf, emit, mbind, mret, Run_bind, Run_ret.
  destruct (s3_service env (trace rt) (S3Client basics) _) as [why|];
    cbn [fst snd trace ticks]; rewrite ?List.filter_app, ?app_nil_r;
    cbn [List.filter is_s3]; by rewrite ?app_nil_r.
Qed.

(** X2. Both helpers log exactly when the service refuses: one line that names
    the bucket (and the region or the key) and ends with the cause and a line
    feed; on success they log nothing. *)
Theorem helpers_log_on_failure (env : Env) (basics : BucketBasics)
    (rt : Runtime) :
  (forall name region,
     let r := CreateBucket env basics name region rt in
     List.filter is_logged (trace (snd r))
     = List.filter is_logged (trace rt)
       ++ match fst r with
          | Some why =>
              [Logged ("Couldn't create bucket " +:+ name +:+ " in Region "
                       +:+ region +:+ ". Here's why: " +:+ why +:+ newline)]
          | None => []
          end)
  /\ (forall bucketName fileName fileData,
        let r := UploadFileToS3 env basics bucketName fileName fileData rt in
        List.filter is_logged (trace (snd r))
        = List.filter is_logged (trace rt)
          ++ match fst r with
             | Some why =>
                 [Logged ("Couldn't upload file to " +:+ bucketName +:+ ":"
                          +:+ fileName +:+ ". Here's why: " +:+ why
                          +:+ newline)]
             | None => []
             end).
Proof.
  split; intros; subst r;
    unfold CreateBucket, UploadFileToS3, send, Printf, emit, mbind, mret,
      Run_bind, Run_ret;
    destruct (s3_service env (trace rt) (S3Client basics) _) as [why|];
    cbn [fst snd trace]; rewrite ?List.filter_app;
    cbn [List.filter is_logged]; by rewrite ?app_nil_r.
Qed.

(** ** Failures of the transform *)

(** X3. [compressZstd] fails exactly when the encoder cannot be created or
    refuses the write.  What [Close] reports is dropped: once the write has
    gone through, the result is the buffer as [Close] left it, without
    error. *)
Theorem compressZstd_drops_close_error {codec : ZstdLib} (data : list byte) :
  is_Err (compressZstd data)
  = match NewWriter [] with
    | Err _ => true
    | Ok e0 => bool_decide (is_Some (snd (snd (Write e0 data))))
    end
  /\ (forall e0 e1 n e2 cerr,
        NewWriter [] = Ok e0 ->
        Write e0 data = (e1, (n, None)) ->
        Close e1 = (e2, cerr) ->
        compressZstd data = Ok (Bytes e2)).
Proof.
  unfold compressZstd. split.
  - destruct (NewWriter []) as [e0|]; [|done].
    destruct (Write e0 data) as [e1 [n [werr|]]]; cbn [snd].
    + by rewrite bool_decide_true.
    + destruct (Close e1). by rewrite bool_decide_false; [|apply is_Some_None].
  - intros e0 e1 n e2 cerr -> -> ->. reflexivity.
Qed.

Lemma compressZstd_drops_close_error_witness :
  Close (ZstdLib := Sample.unflushed)
    {| Sample.sink := []; Sample.pending := bytes_of "hello" |}
  = ({| Sample.sink := []; Sample.pending := bytes_of "hello" |},
     Some "write error")
  /\ compressZstd (codec := Sample.unflushed) (bytes_of "hello") = Ok [].
Proof.
  split; [reflexivity|].
  exact (proj2 (compressZstd_drops_close_error (codec := Sample.unflushed)
                  (bytes_of "hello"))
           _ _ _ _ _ eq_refl eq_refl eq_refl).
Defined.

(** X4. Whatever made the compression fail, the error of [compressAndEncrypt]
    reads "zstandard compression error: zstandard compression ...": the
    prefix of [compressAndEncrypt] in front of one of the two messages of
    [compressZstd].  The "AES encryption error" is never returned. *)
Theorem compressAndEncrypt_error_text {codec : ZstdLib} (data : list byte)
    (err : error) :
  compressAndEncrypt data = Err err ->
  exists cause,
    err = "zstandard compression error: zstandard compression initialization error: "
          +:+ cause
    \/ err = "zstandard compression error: zstandard compression error: "
             +:+ cause.
Proof.
  unfold compressAndEncrypt, compressZstd.
  destruct (NewWriter []) as [e0|cause].
  - destruct (Write e0 data) as [e1 [n [cause|]]].
    + intros [= <-]. exists cause. by right.
    + by destruct (Close e1).
  - intros [= <-]. exists cause. by left.
Qed.

Lemma compressAndEncrypt_error_text_witness :
  (exists cause,
     "zstandard compression error: zstandard compression error: short write"
     = "zstandard compression error: zstandard compression initialization error: "
       +:+ cause
     \/ "zstandard compression error: zstandard compression error: short write"
        = "zstandard compression error: zstandard compression error: "
          +:+ cause)
  /\ compressAndEncrypt (codec := Sample.unavailable) (bytes_of "hello")
     = Err "zstandard compression error: zstandard compression initialization error: invalid option".
Proof.
  split; [|reflexivity].
  exact (compressAndEncrypt_error_text (codec := Sample.broken)
           (bytes_of "hello") _ eq_refl).
Defined.

(** ** What the handlers upload *)

Lemma compressAndEncrypt_inv {codec : ZstdLib} (data out : list byte) :
  compressAndEncrypt data = Ok out ->
  exists compressed,
    compressZstd data = Ok compressed
    /\ out = bytes_of "your-encryption-key" ++ compressed.
Proof.
  unfold compressAndEncrypt.
  destruct (compressZstd data) as [compressed|]; [|discriminate].
  intros [= <-]. by exists compressed.
Qed.

(** X5. In the first program, with a lossless Zstandard library, every object
    the handler puts starts with the nineteen bytes of the key in the clear,
    the rest decodes to the bytes of the request body, and its key is
    "upload-", the second clock reading and ".zst". *)
Theorem uploaded_object_decodes {codec : ZstdLib} (env : Env) (ctx : Context)
    (request : APIGatewayProxyRequest.t) (client : Client) (c : Context)
    (params : PutObjectInput.t) (err : option error) :
  zstd_lossless ->
  S3 client (PutObjectCall c params) err
    ∈ trace_of (invoke Compression env ctx request) ->
  take 19 (PutObjectInput.Body params) = bytes_of "your-encryption-key"
  /\ DecodeAll (drop 19 (PutObjectInput.Body params))
     = Ok (bytes_of (APIGatewayProxyRequest.Body request))
  /\ PutObjectInput.Key params
     = Some ("upload-" +:+ Format (wall_clock env 1) +:+ ".zst").
Proof.
  intros Hlib. run_handler; cbn [trace_of snd trace]; intros Hin;
    pick_event Hin.
  all: apply compressAndEncrypt_inv in Htr as (compressed & Hc & ->).
  all: cbn [PutObjectInput.Body PutObjectInput.Key].
  all: split; [reflexivity|]; split; [|reflexivity].
  all: change 19 with (length (bytes_of "your-encryption-key")).
  all: rewrite drop_app_length; by apply compressZstd_lossless.
Qed.

Lemma uploaded_object_decodes_witness :
  exists params,
    S3 (NewFromConfig Sample.cfg) (PutObjectCall TODO params) None
      ∈ trace_of (invoke (codec := Sample.stored) Compression Sample.sunny
                    Background Sample.hello)
    /\ DecodeAll (ZstdLib := Sample.stored)
         (drop 19 (PutObjectInput.Body params)) = Ok (bytes_of "hello").
Proof.
  eexists. split.
  - vm_compute. do 4 apply list_elem_of_further. apply list_elem_of_here.
  - refine (proj1 (proj2 (uploaded_object_decodes (codec := Sample.stored)
             Sample.sunny Background Sample.hello _ _ _ _ stored_lossless _))).
    vm_compute. do 4 apply list_elem_of_further. apply list_elem_of_here.
Defined.

(** X6. In the second program, every object the handler puts has the bytes of
    the request body as they came, and its key is "upload-" and the second
    clock reading. *)
Theorem uploaded_object_is_the_body {codec : ZstdLib} (env : Env)
    (ctx : Context) (request : APIGatewayProxyRequest.t) (client : Client)
    (c : Context) (params : PutObjectInput.t) (err : option error) :
  S3 client (PutObjectCall c params) err
    ∈ trace_of (invoke Upload env ctx request) ->
  PutObjectInput.Body params = bytes_of (APIGatewayProxyRequest.Body request)
  /\ String.string_of_list_byte (PutObjectInput.Body params)
     = APIGatewayProxyRequest.Body request
  /\ PutObjectInput.Key params = Some ("upload-" +:+ Format (wall_clock env 1)).
Proof.
  run_handler; cbn [trace_of snd trace]; intros Hin; pick_event Hin.
  all: cbn [PutObjectInput.Body PutObjectInput.Key].
  all: split; [reflexivity|]; split; [|reflexivity].
  all: apply String.string_of_list_byte_of_string.
Qed.

Lemma uploaded_object_is_the_body_witness :
  exists params,
    S3 (NewFromConfig Sample.cfg) (PutObjectCall TODO params) None
      ∈ trace_of (invoke (codec := Sample.stored) Upload Sample.sunny
                    Background Sample.hello)
    /\ PutObjectInput.Body params = bytes_of "hello".
Proof.
  eexists. split.
  - vm_compute. do 4 apply list_elem_of_further. apply list_elem_of_here.
  - refine (proj1 (uploaded_object_is_the_body (codec := Sample.stored)
             Sample.sunny Background Sample.hello _ _ _ _ _)).
    vm_compute. do 4 apply list_elem_of_further. apply list_elem_of_here.
Defined.

(** ** Order and number of the steps *)

(** X7. An object is only ever put after the bucket was created: whenever the
    event at position [i] of an invocation is a [PutObject], the events before
    it hold one successful creation, of the very bucket the object goes to. *)
Theorem put_follows_successful_create {codec : ZstdLib} (v : Variant)
    (env : Env) (ctx : Context) (request : APIGatewayProxyRequest.t)
    (i : nat) (e : Event) :
  trace_of (invoke v env ctx request) !! i = Some e ->
  is_put e = true ->
  exists name,
    bucket_of e = Some name
    /\ created_buckets (take i (trace_of (invoke v env ctx request))) = [name].
Proof.
  destruct v; run_handler; cbn [trace_of snd trace]; intros Hi Hput.
  all: repeat match type of Hi with
         | [] !! _ = Some _ => by rewrite lookup_nil in Hi
         | (_ :: _) !! ?i = Some _ =>
             destruct i as [|i];
             [ injection Hi as <-; first [discriminate Hput | by eexists]
             | simpl in Hi ]
         end.
Qed.

Lemma put_follows_successful_create_witness :
  let tr := trace_of (invoke (codec := Sample.stored) Upload Sample.no_object
                        Background Sample.hello) in
  exists name e,
    tr !! 4 = Some e /\ is_put e = true /\ bucket_of e = Some name
    /\ created_buckets (take 4 tr) = [name].
Proof.
  intros tr.
  destruct (put_follows_successful_create (codec := Sample.stored) Upload
              Sample.no_object Background Sample.hello 4 _ eq_refl eq_refl)
    as (name & Hname & Hcreated).
  eexists name, _. split; [reflexivity|]. split; [reflexivity|].
  split; [exact Hname | exact Hcreated].
Defined.


(** X9. When the configuration cannot be loaded, the invocation is over at
    once: one log line with the cause, no clock reading, no request to S3,
    and the 500 response with a nil error. *)
Theorem config_failure_stops_everything {codec : ZstdLib} (v : Variant)
    (env : Env) (ctx : Context) (request : APIGatewayProxyRequest.t)
    (cause : error) :
  ambient_config env ctx = Err cause ->
  invoke v env ctx request
  = (response 500 "", None,
     {| ticks := 0;
        trace := [LoadedConfig ctx (Err cause);
                  Logged ("Failed to load AWS config: " +:+ cause)] |}).
Proof.
  intros Hcfg. destruct v; unfold_handler; by rewrite Hcfg.
Qed.

Lemma config_failure_stops_everything_witness :
  trace_of (invoke (codec := Sample.stored) Compression Sample.no_config
              Background Sample.hello)
  = [LoadedConfig Background (Err "failed to get shared config profile");
     Logged "Failed to load AWS config: failed to get shared config profile"].
Proof.
  rewrite (config_failure_stops_everything (codec := Sample.stored)
             Compression Sample.no_config Background Sample.hello
             "failed to get shared config profile" eq_refl).
  reflexivity.
Defined.

(** X10. A failing configuration load, creation or object write leaves exactly
    one log line; a successful invocation leaves none, and neither does a
    failing transform: that failure is not logged. *)
Theorem one_log_line_per_backend_failure {codec : ZstdLib} (v : Variant)
    (env : Env) (ctx : Context) (request : APIGatewayProxyRequest.t) :
  let tr := trace_of (invoke v env ctx request) in
  length (List.filter is_logged tr)
  = (if config_failed tr || create_failed tr || put_failed tr then 1 else 0)
  /\ (if transform_failed v request tr
      then List.filter is_logged tr = []
      else True).
Proof.
  destruct v; unfold transform_failed; run_handler; cbn; by split.
Qed.

(** X11. Of the request, only the body counts: two requests with the same body
    give the same response, the same error and the same trace, whatever
    their path, method, headers and base64 flag. *)
Theorem only_the_body_counts {codec : ZstdLib} (v : Variant) (env : Env)
    (ctx : Context) (request1 request2 : APIGatewayProxyRequest.t) :
  APIGatewayProxyRequest.Body request1 = APIGatewayProxyRequest.Body request2 ->
  invoke v env ctx request1 = invoke v env ctx request2.
Proof.
  intros Hbody. destruct v; unfold invoke, Compress.Handler, Plain.Handler;
    by rewrite Hbody.
Qed.

Lemma only_the_body_counts_witness :
  APIGatewayProxyRequest.IsBase64Encoded Sample.hello
  <> APIGatewayProxyRequest.IsBase64Encoded Sample.flagged
  /\ invoke (codec := Sample.stored) Compression Sample.sunny Background
       Sample.hello
     = invoke (codec := Sample.stored) Compression Sample.sunny Background
         Sample.flagged.
Proof.
  split; [discriminate|].
  exact (only_the_body_counts (codec := Sample.stored) Compression
           Sample.sunny Background Sample.hello Sample.flagged eq_refl).
Defined.

(** ** Names, once more *)

Lemma string_length_app (a b : string) :
  String.length (a +:+ b) = String.length a + String.length b.
Proof. induction a as [|x a IH]; simpl; [done | by rewrite IH]. Qed.

Lemma string_app_inj_r (a b s : string) : a +:+ s = b +:+ s -> a = b.
Proof.
  revert b. induction a as [|x a IH]; intros [|y b] Heq; [done| | |].
  - apply (f_equal String.length) in Heq.
    rewrite !string_length_app in Heq. simpl in Heq. lia.
  - apply (f_equal String.length) in Heq.
    rewrite !string_length_app in Heq. simpl in Heq. lia.
  - simpl in Heq. injection Heq as -> Heq. f_equal. by apply IH.
Qed.

(** X12. Names only collide within a second.  If the first clock readings of
    two invocations format differently, no bucket name of the one is a bucket
    name of the other; if the second readings do, none of their object keys
    coincide. *)
Theorem distinct_seconds_distinct_names {codec : ZstdLib} (v : Variant)
    (env1 env2 : Env) (ctx1 ctx2 : Context)
    (request1 request2 : APIGatewayProxyRequest.t) :
  (Format (wall_clock env1 0) <> Format (wall_clock env2 0) ->
   forall name1 name2,
     name1 ∈ bucket_names (trace_of (invoke v env1 ctx1 request1)) ->
     name2 ∈ bucket_names (trace_of (invoke v env2 ctx2 request2)) ->
     name1 <> name2)
  /\ (Format (wall_clock env1 1) <> Format (wall_clock env2 1) ->
      forall key1 key2,
        key1 ∈ object_keys (trace_of (invoke v env1 ctx1 request1)) ->
        key2 ∈ object_keys (trace_of (invoke v env2 ctx2 request2)) ->
        key1 <> key2).
Proof.
  split; intros Hsec n1 n2; revert Hsec.
  all: destruct v; run_handler; cbn; intros Hsec H1 H2 Heq; apply Hsec.
  all: pick_event H1; pick_event H2.
  all: first [ by simplify_eq/=
             | apply (string_app_inj_r _ _ ".zst"); by simplify_eq/= ].
Qed.

Lemma distinct_seconds_distinct_names_witness :
  (forall name1 name2,
     name1 ∈ bucket_names (trace_of (invoke (codec := Sample.stored)
              Compression Sample.sunny Background Sample.hello)) ->
     name2 ∈ bucket_names (trace_of (invoke (codec := Sample.stored)
              Compression Sample.next Background Sample.hello)) ->
     name1 <> name2)
  /\ (forall key1 key2,
        key1 ∈ object_keys (trace_of (invoke (codec := Sample.stored)
                 Compression Sample.sunny Background Sample.hello)) ->
        key2 ∈ object_keys (trace_of (invoke (codec := Sample.stored)
                 Compression Sample.next Background Sample.hello)) ->
        key1 <> key2).
Proof.
  destruct (distinct_seconds_distinct_names (codec := Sample.stored)
              Compression Sample.sunny Sample.next Background Background
              Sample.hello Sample.hello) as [Hnames Hkeys].
  split; [apply Hnames | apply Hkeys]; vm_compute; discriminate.
Defined.

(** ** Context, client and outcome *)

(** X13. The context the handler is given is used to load the configuration
    and for nothing else: every request to S3 is sent with [context.TODO()],
    through the client made from the loaded configuration. *)
Theorem requests_use_context_TODO {codec : ZstdLib} (v : Variant) (env : Env)
    (ctx : Context) (request : APIGatewayProxyRequest.t) (cfg : Config) :
  ambient_config env ctx = Ok cfg ->
  let tr := trace_of (invoke v env ctx request) in
  List.filter is_config tr = [LoadedConfig ctx (Ok cfg)]
  /\ Forall (fun e => context_of e = Some TODO
                      /\ client_of e = Some (NewFromConfig cfg))
       (List.filter is_s3 tr)
  /\ List.filter is_s3 tr <> [].
Proof.
  intros Hcfg.
  destruct v; unfold_handler; rewrite Hcfg; cbn [ticks trace fst snd app];
    repeat (answer; cbn [ticks trace fst snd app]); cbn.
  all: split; [reflexivity|]; split; [|discriminate].
  all: by repeat constructor.
Qed.

Lemma requests_use_context_TODO_witness :
  Forall (fun e => context_of e = Some TODO
                   /\ client_of e = Some (NewFromConfig Sample.cfg))
    (List.filter is_s3
       (trace_of (invoke (codec := Sample.stored) Compression Sample.sunny
                    Background Sample.hello))).
Proof.
  exact (proj1 (proj2 (requests_use_context_TODO (codec := Sample.stored)
           Compression Sample.sunny Background Sample.hello Sample.cfg
           eq_refl))).
Defined.

(** X14. The status tells exactly what happened: it is 200 if and only if
    every stage succeeded, 500 if and only if some stage failed, and the two
    exclude each other. *)
Theorem status_reflects_the_stages {codec : ZstdLib} (v : Variant) (env : Env)
    (ctx : Context) (request : APIGatewayProxyRequest.t) :
  let o := invoke v env ctx request in
  (APIGatewayProxyResponse.StatusCode (response_of o) =? 200)%Z
  = all_stages_succeeded v request (trace_of o)
  /\ (APIGatewayProxyResponse.StatusCode (response_of o) =? 500)%Z
     = some_stage_failed v request (trace_of o)
  /\ all_stages_succeeded v request (trace_of o)
     = negb (some_stage_failed v request (trace_of o)).
Proof.
  destruct v;
    unfold all_stages_succeeded, transform_succeeded, some_stage_failed,
      stage_failed, transform_failed;
    run_handler; cbn; by repeat split.
Qed.
